(** * final_TSLA.ipynb: stationarity test, log-difference transform,
      walk-forward ARIMA forecast, Kalman filter and error summaries

    A shallow embedding of the code cells of
    [time_series_tesla/final_TSLA.ipynb].

    Numbers.  A numpy float64 is modelled by [npfloat]: a real number, one of
    the two infinities, or NaN.  Finite values are idealised as real numbers:
    there is no rounding, no overflow and no signed zero.  What numpy does at
    the edges of the domain (log of a non-positive number, division by zero,
    arithmetic on infinities and NaN) is written out.

    Library calls.  [adfuller], the ARIMA fit and forecast, and the Kalman
    filter are library code.  The first two are parameters of the functions
    that call them; the Kalman recursion follows the specification. *)

From Stdlib Require Import String Reals Lra Lia Bool Arith List.
Import ListNotations.

Open Scope R_scope.

(** ** Python outcomes *)

(** The built-in exceptions the modelled cells can raise. *)
Inductive exn : Type :=
| ZeroDivisionError
| IndexError
| ValueError
| LinAlgError.

(** A Python expression either evaluates to a value or raises. *)
Inductive result (A : Type) : Type :=
| Ok (a : A)
| Raise (e : exn).

Arguments Ok {A} a.
Arguments Raise {A} e.

Definition bind {A B : Type} (c : result A) (k : A -> result B) : result B :=
  match c with
  | Ok a => k a
  | Raise e => Raise e
  end.

Notation "x <- c ;; k" := (bind c (fun x => k))
  (at level 61, c at next level, right associativity).

(** ** numpy floats *)

Module NumPy.

Inductive npfloat : Type :=
| Fin (r : R)
| PInf
| NInf
| NaN.

Definition isnan (a : npfloat) : bool :=
  match a with
  | NaN => true
  | _ => false
  end.

Definition fneg (a : npfloat) : npfloat :=
  match a with
  | Fin r => Fin (- r)
  | PInf => NInf
  | NInf => PInf
  | NaN => NaN
  end.

Definition fabs (a : npfloat) : npfloat :=
  match a with
  | Fin r => Fin (Rabs r)
  | PInf => PInf
  | NInf => PInf
  | NaN => NaN
  end.

Definition fadd (a b : npfloat) : npfloat :=
  match a, b with
  | NaN, _ => NaN
  | _, NaN => NaN
  | Fin x, Fin y => Fin (x + y)
  | PInf, NInf => NaN
  | NInf, PInf => NaN
  | PInf, _ => PInf
  | NInf, _ => NInf
  | Fin _, PInf => PInf
  | Fin _, NInf => NInf
  end.

Definition fsub (a b : npfloat) : npfloat := fadd a (fneg b).

(** An infinity of the sign of [r]; NaN when [r] is zero. *)
Definition inf_of_sign (r : R) : npfloat :=
  if Rlt_dec 0 r then PInf
  else if Rlt_dec r 0 then NInf
  else NaN.

Definition fmul (a b : npfloat) : npfloat :=
  match a, b with
  | NaN, _ => NaN
  | _, NaN => NaN
  | Fin x, Fin y => Fin (x * y)
  | Fin x, PInf => inf_of_sign x
  | Fin x, NInf => inf_of_sign (- x)
  | PInf, Fin y => inf_of_sign y
  | NInf, Fin y => inf_of_sign (- y)
  | PInf, PInf => PInf
  | NInf, NInf => PInf
  | PInf, NInf => NInf
  | NInf, PInf => NInf
  end.

(** numpy division: a finite number over zero is an infinity of its sign
    (NaN for 0/0), with at most a warning; nothing is raised. *)
Definition fdiv (a b : npfloat) : npfloat :=
  match a, b with
  | NaN, _ => NaN
  | _, NaN => NaN
  | Fin x, Fin y => if Req_dec_T y 0 then inf_of_sign x else Fin (x / y)
  | Fin _, PInf => Fin 0
  | Fin _, NInf => Fin 0
  | PInf, Fin y => if Rlt_dec y 0 then NInf else PInf
  | NInf, Fin y => if Rlt_dec y 0 then PInf else NInf
  | PInf, PInf => NaN
  | PInf, NInf => NaN
  | NInf, PInf => NaN
  | NInf, NInf => NaN
  end.

(** [np.log]: the logarithm of zero is -inf and the logarithm of a negative
    number is NaN. *)
Definition np_log (a : npfloat) : npfloat :=
  match a with
  | Fin r =>
      if Rlt_dec 0 r then Fin (ln r)
      else if Req_dec_T r 0 then NInf
      else NaN
  | PInf => PInf
  | NInf => NaN
  | NaN => NaN
  end.

(** [np.exp]. *)
Definition np_exp (a : npfloat) : npfloat :=
  match a with
  | Fin r => Fin (exp r)
  | PInf => PInf
  | NInf => Fin 0
  | NaN => NaN
  end.

(** [a >= 0] on floats: false for NaN. *)
Definition fnonneg (a : npfloat) : Prop :=
  match a with
  | Fin r => 0 <= r
  | PInf => True
  | NInf => False
  | NaN => False
  end.

End NumPy.
Import NumPy.

(** ** Stationarity test (cell [test_stationarity]) *)

Module Stationarity.

(** The fields of the tuple returned by [adfuller] that the cell reads:
    [result[0]], [result[1]] and the ordered dict [result[4]] of critical
    values, keyed '1%', '5%', '10%' in that order. *)
Record adf_result : Type := {
  adf_stat : R;
  adf_pvalue : R;
  adf_crit : list (string * R)
}.

(** One [print] call of the cell. *)
Inductive printed : Type :=
| P_statistic (v : R)
| P_pvalue (v : R)
| P_text (s : string)
| P_critical (key : string) (value : R).

(** The loop of lines 250-256.  Both branches end in [break], so only the
    first item of the dict is ever compared. *)
Definition verdict_loop (statistic : R) (items : list (string * R)) : list printed :=
  match items with
  | [] => []
  | (_, value) :: _ =>
      if Rgt_dec statistic value
      then [P_text "The graph is non stationary"]
      else [P_text "The graph is stationary"]
  end.

(** [test_stationarity(x)], without the rolling-statistics plot.  [pvalue] is
    assigned at line 249 and never read again. *)
Definition test_stationarity (adfuller : list npfloat -> adf_result)
    (x : list npfloat) : list printed :=
  let result := adfuller x in
  let pvalue := adf_pvalue result in
  [P_statistic (adf_stat result); P_pvalue (adf_pvalue result)]
  ++ verdict_loop (adf_stat result) (adf_crit result)
  ++ [P_text "Critical values:"]
  ++ map (fun kv => P_critical (fst kv) (snd kv)) (adf_crit result).

(** The verdict messages among the printed lines. *)
Definition is_verdict (p : printed) : bool :=
  match p with
  | P_text s =>
      String.eqb s "The graph is non stationary"
      || String.eqb s "The graph is stationary"
  | _ => false
  end.

Definition verdict_lines (out : list printed) : list printed :=
  filter is_verdict out.

Inductive verdict : Type := STATIONARY | NON_STATIONARY.

(** The rule stated in the notebook's text before the cell (and in the
    specification): p-value > 0.05 is non-stationary, otherwise stationary. *)
Definition pvalue_rule (p : R) : verdict :=
  if Rgt_dec p (5 / 100) then NON_STATIONARY else STATIONARY.

Definition verdict_text (v : verdict) : printed :=
  match v with
  | STATIONARY => P_text "The graph is stationary"
  | NON_STATIONARY => P_text "The graph is non stationary"
  end.

(** An ADF outcome between the 1% and the 5% critical value. *)
Definition borderline : adf_result :=
  {| adf_stat := - 3;
     adf_pvalue := 35 / 1000;
     adf_crit := [("1%"%string, - (343 / 100));
                  ("5%"%string, - (286 / 100));
                  ("10%"%string, - (257 / 100))] |}.

Lemma verdict_lines_critical (items : list (string * R)) :
  verdict_lines (map (fun kv => P_critical (fst kv) (snd kv)) items) = [].
Proof.
  induction items as [|kv items IH]; simpl; auto.
Qed.

Lemma verdict_lines_loop (statistic : R) (items : list (string * R)) :
  verdict_lines (verdict_loop statistic items) = verdict_loop statistic items.
Proof.
  destruct items as [|[key value] items]; simpl; auto.
  destruct (Rgt_dec statistic value); reflexivity.
Qed.

(** The verdict lines of the cell are exactly what the loop printed. *)
Lemma verdict_lines_test_stationarity adfuller x :
  verdict_lines (test_stationarity adfuller x)
  = verdict_loop (adf_stat (adfuller x)) (adf_crit (adfuller x)).
Proof.
  unfold test_stationarity, verdict_lines.
  simpl. rewrite filter_app. simpl.
  fold (verdict_lines (verdict_loop (adf_stat (adfuller x)) (adf_crit (adfuller x)))).
  fold (verdict_lines (map (fun kv => P_critical (fst kv) (snd kv)) (adf_crit (adfuller x)))).
  rewrite verdict_lines_loop, verdict_lines_critical.
  apply app_nil_r.
Qed.

(** The printed verdict does not depend on the p-value: two ADF outcomes with
    the same statistic and critical values give the same verdict lines. *)
Lemma verdict_ignores_pvalue adfuller adfuller' x x' :
  adf_stat (adfuller x) = adf_stat (adfuller' x') ->
  adf_crit (adfuller x) = adf_crit (adfuller' x') ->
  verdict_lines (test_stationarity adfuller x)
  = verdict_lines (test_stationarity adfuller' x').
Proof.
  intros Hs Hc. rewrite !verdict_lines_test_stationarity.
  now rewrite Hs, Hc.
Qed.

(** C3 (the code departs from the claim): on a series whose ADF outcome is
    [borderline] (statistic -3.0 above the 1% critical value -3.43, p-value
    0.035), the cell prints "The graph is non stationary" although the p-value
    rule gives STATIONARY. *)
Theorem test_stationarity_contradicts_pvalue_rule :
  forall (adfuller : list npfloat -> adf_result) (x : list npfloat),
    adfuller x = borderline ->
    pvalue_rule (adf_pvalue (adfuller x)) = STATIONARY
    /\ verdict_lines (test_stationarity adfuller x)
       = [verdict_text NON_STATIONARY]
    /\ verdict_lines (test_stationarity adfuller x)
       <> [verdict_text (pvalue_rule (adf_pvalue (adfuller x)))].
Proof.
  intros adfuller x Hx.
  assert (Hp : pvalue_rule (adf_pvalue (adfuller x)) = STATIONARY).
  { rewrite Hx. unfold pvalue_rule, borderline; simpl.
    destruct (Rgt_dec (35 / 1000) (5 / 100)) as [H|H]; [lra|reflexivity]. }
  assert (Hv : verdict_lines (test_stationarity adfuller x)
               = [verdict_text NON_STATIONARY]).
  { rewrite verdict_lines_test_stationarity, Hx.
    unfold borderline; simpl.
    destruct (Rgt_dec (- 3) (- (343 / 100))) as [H|H]; [reflexivity|lra]. }
  repeat split; auto.
  rewrite Hv, Hp. simpl. discriminate.
Qed.

Lemma test_stationarity_contradicts_pvalue_rule_witness :
  pvalue_rule (adf_pvalue ((fun _ => borderline) [Fin 1])) = STATIONARY
  /\ verdict_lines (test_stationarity (fun _ => borderline) [Fin 1])
     = [verdict_text NON_STATIONARY]
  /\ verdict_lines (test_stationarity (fun _ => borderline) [Fin 1])
     <> [verdict_text (pvalue_rule (adf_pvalue ((fun _ => borderline) [Fin 1])))].
Proof.
  apply (test_stationarity_contradicts_pvalue_rule (fun _ => borderline) [Fin 1]).
  reflexivity.
Defined.

End Stationarity.

(** ** Log and log-difference transforms (cells at lines 281 and 302-316) *)

Module Transform.

(** A pandas Series of floats, by position; NaN marks a missing entry. *)
Definition series : Type := list npfloat.

(** [ts_log = np.log(ts)], line 281.  numpy applies the logarithm entry by
    entry and raises nothing; the notebook's first cell silences warnings. *)
Definition log_cell (ts : series) : result series :=
  Ok (map np_log ts).

(** [Series.shift(periods)]: entries move down by [periods] positions, the
    vacated head is NaN and the length is kept. *)
Definition shift (periods : nat) (s : series) : series :=
  firstn (length s) (repeat NaN periods ++ s).

(** Entry-wise [a - b] of two series over the same index. *)
Definition series_sub (a b : series) : series :=
  map (fun p => fsub (fst p) (snd p)) (combine a b).

(** Entry-wise [s * c] and [s / c]. *)
Definition series_mul (s : series) (c : npfloat) : series :=
  map (fun x => fmul x c) s.

Definition series_div (s : series) (c : npfloat) : series :=
  map (fun x => fdiv x c) s.

(** [Series.dropna()]. *)
Definition dropna (s : series) : series :=
  filter (fun x => negb (isnan x)) s.

(** [(ts_log - ts_log.shift(periods)) * 100] followed by [dropna]. *)
Definition log_diff_lag (periods : nat) (ts_log : series) : series :=
  dropna (series_mul (series_sub ts_log (shift periods ts_log)) (Fin 100)).

(** Lines 302 and 315: [ts_log_diff = (ts_log - ts_log.shift())*100], then
    [ts_log_diff.dropna(inplace=True)]; [shift()] has [periods=1]. *)
Definition ts_log_diff (ts_log : series) : series :=
  log_diff_lag 1 ts_log.

(** Modelled from the spec: the inverse of the difference transform, which the
    notebook does not contain.  [window] holds the last [lag] values known so
    far, at first the anchor values dropped by differencing; each difference
    is added to the value [lag] positions before it. *)
Fixpoint invert_difference (window : series) (diffs : series) : series :=
  match diffs with
  | [] => []
  | d :: ds =>
      match window with
      | [] => []
      | a :: w =>
          let x := fadd d a in
          x :: invert_difference (w ++ [x]) ds
      end
  end.

(** Modelled from the spec: the inverse of the log-difference in percentage
    units, undoing the scaling by 100 before the differences are summed. *)
Definition invert_log_diff (anchors : series) (diffs : series) : series :=
  invert_difference anchors (series_div diffs (Fin 100)).

(** The inverse of the log transform is [np.exp], as at lines 478 and 481. *)
Definition invert_log (s : series) : series := map np_exp s.

(** A series of finite values. *)
Definition finite (rs : list R) : series := map Fin rs.

Definition all_positive (rs : list R) : Prop := Forall (fun r => 0 < r) rs.

(** The difference of a pair, and the same in percentage units. *)
Definition gap (p : R * R) : R := fst p - snd p.
Definition gap100 (p : R * R) : R := (fst p - snd p) * 100.

(** *** Closed forms on finite series *)

Lemma log_positive (rs : list R) :
  all_positive rs -> map np_log (finite rs) = finite (map ln rs).
Proof.
  induction 1 as [|r rs Hr _ IH]; simpl; auto.
  destruct (Rlt_dec 0 r) as [_|Hn]; [|contradiction].
  f_equal. exact IH.
Qed.

Lemma exp_log_positive (rs : list R) :
  all_positive rs -> invert_log (finite (map ln rs)) = finite rs.
Proof.
  induction 1 as [|r rs Hr _ IH]; simpl; auto.
  rewrite exp_ln by assumption.
  f_equal. exact IH.
Qed.

Lemma all_positive_skipn (k : nat) (rs : list R) :
  all_positive rs -> all_positive (skipn k rs).
Proof.
  intros H. revert k. induction H as [|r rs Hr Hrs IH]; intros [|k]; simpl;
    try constructor; auto.
Qed.

Lemma dropna_nans (n : nat) (s : series) :
  dropna (repeat NaN n ++ s) = dropna s.
Proof.
  induction n as [|n IH]; simpl; auto.
Qed.

Lemma dropna_finite (rs : list R) : dropna (finite rs) = finite rs.
Proof.
  induction rs as [|r rs IH]; simpl; auto.
  f_equal. exact IH.
Qed.

Lemma sub_finite (xs ys : list R) :
  map (fun p => fsub (fst p) (snd p)) (combine (finite xs) (finite ys))
  = finite (map gap (combine xs ys)).
Proof.
  revert ys. induction xs as [|x xs IH]; intros [|y ys]; simpl; auto.
  rewrite IH. reflexivity.
Qed.

(** Against a copy delayed by [k] entries: [k] NaN (as far as the series
    reaches), then the differences at distance [k]. *)
Lemma sub_delayed (k : nat) (xs ys : list R) :
  map (fun p => fsub (fst p) (snd p))
      (combine (finite xs) (repeat NaN k ++ finite ys))
  = repeat NaN (Nat.min k (length xs))
    ++ finite (map gap (combine (skipn k xs) ys)).
Proof.
  revert xs. induction k as [|k IH]; intros xs.
  - simpl. apply sub_finite.
  - destruct xs as [|x xs]; simpl; auto.
    rewrite IH. reflexivity.
Qed.

Lemma sub_shift_finite (k : nat) (rs : list R) :
  series_sub (finite rs) (shift k (finite rs))
  = repeat NaN (Nat.min k (length rs))
    ++ finite (map gap (combine (skipn k rs) rs)).
Proof.
  unfold series_sub, shift.
  rewrite <- combine_firstn_l.
  apply sub_delayed.
Qed.

Lemma mul100_finite (ds : list R) :
  series_mul (finite ds) (Fin 100) = finite (map (fun d => d * 100) ds).
Proof.
  unfold series_mul, finite. rewrite !map_map. reflexivity.
Qed.

Lemma div100_finite (ds : list R) :
  series_div (finite ds) (Fin 100) = finite (map (fun d => d / 100) ds).
Proof.
  unfold series_div, finite. rewrite !map_map.
  apply map_ext. intros d. simpl.
  destruct (Req_dec_T 100 0) as [H|H]; [lra|reflexivity].
Qed.

(** The log-difference of a finite series, in closed form. *)
Lemma log_diff_lag_finite (k : nat) (rs : list R) :
  log_diff_lag k (finite rs)
  = finite (map gap100 (combine (skipn k rs) rs)).
Proof.
  unfold log_diff_lag. rewrite sub_shift_finite.
  unfold series_mul. rewrite map_app, map_repeat. simpl.
  rewrite dropna_nans.
  fold (series_mul (finite (map gap (combine (skipn k rs) rs))) (Fin 100)).
  rewrite mul100_finite, dropna_finite, map_map.
  reflexivity.
Qed.

Lemma length_log_diff_lag (k : nat) (rs : list R) :
  length (log_diff_lag k (finite rs)) = (length rs - k)%nat.
Proof.
  rewrite log_diff_lag_finite. unfold finite.
  rewrite !length_map, length_combine, length_skipn. lia.
Qed.

(** Summing the differences back from a non-empty window of anchors. *)
Lemma invert_difference_finite (rest w : list R) :
  w <> [] ->
  invert_difference (finite w) (finite (map gap (combine rest (w ++ rest))))
  = finite rest.
Proof.
  revert w. induction rest as [|r rest IH]; intros w Hw.
  - simpl. reflexivity.
  - destruct w as [|a w]; [contradiction|]. simpl.
    assert (Hr : gap (r, a) + a = r) by (unfold gap; simpl; ring).
    rewrite Hr. f_equal.
    specialize (IH (w ++ [r])).
    rewrite <- app_assoc in IH. simpl in IH.
    unfold finite in IH |- *. rewrite map_app in IH. simpl in IH.
    apply IH.
    destruct w; discriminate.
Qed.

Lemma undo_scaling (l : list (R * R)) :
  series_div (finite (map gap100 l)) (Fin 100) = finite (map gap l).
Proof.
  rewrite div100_finite, map_map. unfold finite. f_equal.
  apply map_ext. intros p. unfold gap100, gap. field.
Qed.

Lemma np_log_entry (r : R) :
  np_log (Fin r)
  = if Rlt_dec 0 r then Fin (ln r)
    else if Req_dec_T r 0 then NInf else NaN.
Proof. reflexivity. Qed.

(** Inverting the difference and then the logarithm, on the logarithms of a
    positive series. *)
Lemma round_trip_logs (k : nat) (rs : list R) :
  all_positive rs ->
  (1 <= k)%nat ->
  invert_log (invert_log_diff (firstn k (finite (map ln rs)))
                (log_diff_lag k (finite (map ln rs))))
  = skipn k (finite rs).
Proof.
  intros Hpos Hk.
  rewrite log_diff_lag_finite.
  unfold invert_log_diff. rewrite undo_scaling.
  unfold finite at 1. rewrite firstn_map. fold (finite (firstn k (map ln rs))).
  destruct rs as [|r rs].
  - destruct k; reflexivity.
  - remember (r :: rs) as xs eqn:Exs.
    replace (combine (skipn k (map ln xs)) (map ln xs))
      with (combine (skipn k (map ln xs))
                    (firstn k (map ln xs) ++ skipn k (map ln xs)))
      by now rewrite firstn_skipn.
    rewrite invert_difference_finite.
    + rewrite skipn_map. unfold finite at 2. rewrite skipn_map.
      apply exp_log_positive. now apply all_positive_skipn.
    + subst xs. destruct k as [|k]; [lia|]. simpl. discriminate.
Qed.

(** *** The claims on the transforms *)

(** C4: for a series of positive values of length n and a lag k, the
    log-difference in percentage units has length n - k; for k >= 1,
    inverting the difference from the k anchor values (the scaling by 100
    undone first) and then the logarithm gives back the series without its
    first k entries. *)
Theorem log_diff_round_trip (k : nat) (rs : list R) :
  all_positive rs ->
  exists ts_log : series,
    log_cell (finite rs) = Ok ts_log
    /\ length (log_diff_lag k ts_log) = (length rs - k)%nat
    /\ ((1 <= k)%nat ->
        invert_log (invert_log_diff (firstn k ts_log) (log_diff_lag k ts_log))
        = skipn k (finite rs)).
Proof.
  intros Hpos.
  exists (finite (map ln rs)). split; [|split].
  - unfold log_cell. now rewrite log_positive.
  - rewrite length_log_diff_lag. now rewrite length_map.
  - intros Hk. now apply round_trip_logs.
Qed.

Lemma log_diff_round_trip_witness :
  exists ts_log : series,
    log_cell (finite [1; 2; 4]) = Ok ts_log
    /\ length (log_diff_lag 1 ts_log) = (length [1; 2; 4] - 1)%nat
    /\ invert_log (invert_log_diff (firstn 1 ts_log) (log_diff_lag 1 ts_log))
       = skipn 1 (finite [1; 2; 4]).
Proof.
  destruct (log_diff_round_trip 1 [1; 2; 4]) as (ts_log & Hlog & Hlen & Hinv).
  - repeat constructor; lra.
  - exists ts_log. split; [exact Hlog|]. split; [exact Hlen|].
    apply Hinv. lia.
Defined.

(** The notebook's own [ts_log_diff] is the case of lag 1: one entry fewer,
    and the series is recovered from its first logarithm. *)
Corollary ts_log_diff_round_trip (r : R) (rs : list R) :
  all_positive (r :: rs) ->
  length (ts_log_diff (map np_log (finite (r :: rs)))) = length rs
  /\ invert_log (invert_log_diff [Fin (ln r)]
                   (ts_log_diff (map np_log (finite (r :: rs)))))
     = finite rs.
Proof.
  intros Hpos.
  rewrite (log_positive _ Hpos). unfold ts_log_diff. split.
  - rewrite length_log_diff_lag, length_map. simpl. lia.
  - apply (round_trip_logs 1 (r :: rs) Hpos (le_n 1)).
Qed.

(** Summing the percentage differences without undoing the scaling by 100
    does not give the series back. *)
Lemma scaling_must_be_undone :
  invert_log (invert_difference (firstn 1 (map np_log (finite [1; exp 1])))
                (ts_log_diff (map np_log (finite [1; exp 1]))))
  <> skipn 1 (finite [1; exp 1]).
Proof.
  assert (Hpos : all_positive [1; exp 1]).
  { repeat constructor; [lra | apply exp_pos]. }
  rewrite (log_positive _ Hpos).
  unfold ts_log_diff. rewrite log_diff_lag_finite.
  simpl. unfold gap100; simpl.
  rewrite ln_exp, ln_1.
  intros H. injection H as H.
  apply exp_inv in H. lra.
Qed.

(** C8, as stated, fails: the logarithm of a series holding 0 (or a negative
    number) is returned, with -inf (or NaN) in that place; nothing is
    raised. *)
Lemma log_cell_nonpositive_not_raised :
  log_cell [Fin 0] = Ok [NInf]
  /\ log_cell [Fin 2; Fin (- 1)] = Ok [Fin (ln 2); NaN]
  /\ (forall e : exn, log_cell [Fin 0] <> Raise e).
Proof.
  unfold log_cell; simpl. repeat split.
  - destruct (Rlt_dec 0 0) as [H|_]; [lra|].
    destruct (Req_dec_T 0 0) as [_|H]; [reflexivity|lra].
  - destruct (Rlt_dec 0 2) as [_|H]; [|lra].
    destruct (Rlt_dec 0 (- 1)) as [H|_]; [lra|].
    destruct (Req_dec_T (- 1) 0) as [H|_]; [lra|reflexivity].
  - intros e. discriminate.
Qed.

(** C8, amended: [np.log] never raises; it returns a series of the same
    length whose entry is the natural logarithm where the input is positive,
    -inf where it is zero and NaN where it is negative. *)
Theorem log_cell_total (ts : series) :
  exists out : series,
    log_cell ts = Ok out
    /\ length out = length ts
    /\ forall (i : nat) (r : R),
         nth_error ts i = Some (Fin r) ->
         nth_error out i
         = Some (if Rlt_dec 0 r then Fin (ln r)
                 else if Req_dec_T r 0 then NInf else NaN).
Proof.
  exists (map np_log ts). split; [reflexivity|]. split.
  - apply length_map.
  - intros i r Hi. rewrite nth_error_map, Hi. reflexivity.
Qed.

(** On a series of positive values the result is the entry-wise natural
    logarithm. *)
Lemma log_cell_positive (rs : list R) :
  all_positive rs -> log_cell (finite rs) = Ok (finite (map ln rs)).
Proof.
  intros H. unfold log_cell. now rewrite log_positive.
Qed.

End Transform.

(** ** Walk-forward forecast (cell at lines 459-489) *)

Module WalkForward.

(** The four lists the cell mutates. *)
Record state : Type := {
  history : list npfloat;
  predictions : list npfloat;
  originals : list npfloat;
  error_list : list npfloat
}.

(** How the cell ended: the [for] loop ran out of indices, or an exception
    left it during iteration [t] (the loop variable keeps that value). *)
Inductive ending : Type :=
| Completed
| Aborted (t : nat) (e : exn).

(** Line 484: [((abs(pred_value - original_value)) / original_value) * 100]. *)
Definition percentage_error (pred_value original_value : npfloat) : npfloat :=
  fmul (fdiv (fabs (fsub pred_value original_value)) original_value) (Fin 100).

(** [s[t]] by position. *)
Definition getitem (s : list npfloat) (t : nat) : result npfloat :=
  match nth_error s t with
  | Some v => Ok v
  | None => Raise IndexError
  end.

(** Line 459: [history = [x for x in train_arima]] and three empty lists. *)
Definition init (train_arima : list npfloat) : state :=
  {| history := train_arima;
     predictions := [];
     originals := [];
     error_list := [] |}.

Section Loop.

(** [ARIMA(history, order=(1,1,1)).fit(disp=0).forecast()[0]]: the library
    fits on a copy of the list it is given, and either returns the one-step
    forecast or raises. *)
Variable arima_forecast : list npfloat -> result npfloat.

(** One iteration of the loop.  Nothing is mutated before the fit and the
    lookup [test_arima[t]] have both succeeded; nothing after them raises. *)
Definition body (test_arima : list npfloat) (t : nat) (st : state)
  : result state :=
  output <- arima_forecast (history st) ;;
  original_value <- getitem test_arima t ;;
  let history' := history st ++ [original_value] in
  let pred_value := np_exp output in
  let original_value := np_exp original_value in
  let error := percentage_error pred_value original_value in
  Ok {| history := history';
        predictions := predictions st ++ [pred_value];
        originals := originals st ++ [original_value];
        error_list := error_list st ++ [error] |}.

(** [for t in range(...)]: an exception ends the loop and leaves the lists as
    the completed iterations made them. *)
Fixpoint for_range (test_arima : list npfloat) (ts : list nat) (st : state)
  : state * ending :=
  match ts with
  | [] => (st, Completed)
  | t :: ts' =>
      match body test_arima t st with
      | Ok st' => for_range test_arima ts' st'
      | Raise e => (st, Aborted t e)
      end
  end.

(** The whole cell. *)
Definition walk_forward (train_arima test_arima : list npfloat)
  : state * ending :=
  for_range test_arima (seq 0 (length test_arima)) (init train_arima).

(** *** What the lists hold after [j] completed iterations *)

(** Step [i] was emitted into [st]: forecast from the training values and
    the first [i] test values, true value [test_arima[i]], both brought back
    to the price scale, and their percentage error. *)
Definition emitted (train_arima test_arima : list npfloat) (st : state)
    (i : nat) : Prop :=
  exists output actual : npfloat,
    arima_forecast (train_arima ++ firstn i test_arima) = Ok output
    /\ nth_error test_arima i = Some actual
    /\ nth_error (predictions st) i = Some (np_exp output)
    /\ nth_error (originals st) i = Some (np_exp actual)
    /\ nth_error (error_list st) i
       = Some (percentage_error (np_exp output) (np_exp actual)).

Definition reached (train_arima test_arima : list npfloat) (j : nat)
    (st : state) : Prop :=
  (j <= length test_arima)%nat
  /\ history st = train_arima ++ firstn j test_arima
  /\ length (predictions st) = j
  /\ length (originals st) = j
  /\ length (error_list st) = j
  /\ forall i : nat, (i < j)%nat -> emitted train_arima test_arima st i.

Lemma reached_init train test : reached train test 0 (init train).
Proof.
  unfold reached, init; simpl. repeat split; try lia.
  now rewrite app_nil_r.
Qed.

Lemma firstn_snoc (A : Type) (l : list A) (j : nat) (v : A) :
  nth_error l j = Some v -> firstn (S j) l = firstn j l ++ [v].
Proof.
  revert j. induction l as [|a l IH]; intros [|j] H; simpl in *;
    try discriminate.
  - now injection H as ->.
  - f_equal. now apply IH.
Qed.

Lemma nth_error_snoc_old (A : Type) (l : list A) (v : A) (i : nat) :
  (i < length l)%nat -> nth_error (l ++ [v]) i = nth_error l i.
Proof. intros H. now apply nth_error_app1. Qed.

Lemma nth_error_snoc_new (A : Type) (l : list A) (v : A) :
  nth_error (l ++ [v]) (length l) = Some v.
Proof.
  rewrite nth_error_app2 by lia. now rewrite Nat.sub_diag.
Qed.

(** A completed iteration takes the lists from [j] steps to [j + 1]. *)
Lemma body_reached train test j st st' :
  reached train test j st ->
  body test j st = Ok st' ->
  reached train test (S j) st'
  /\ exists v, nth_error test j = Some v /\ history st' = history st ++ [v].
Proof.
  intros (Hj & Hh & Hp & Ho & He & Hem) Hb.
  unfold body, bind in Hb.
  destruct (arima_forecast (history st)) as [output|e] eqn:Hfit;
    [|discriminate].
  unfold getitem in Hb.
  destruct (nth_error test j) as [v|] eqn:Hv; [|discriminate].
  injection Hb as <-. cbn [history].
  assert (Hlt : (j < length test)%nat).
  { apply nth_error_Some. now rewrite Hv. }
  split; [|exists v; split; auto].
  unfold reached; cbn [history predictions originals error_list].
  repeat split.
  - lia.
  - rewrite Hh, (firstn_snoc _ _ _ _ Hv). now rewrite app_assoc.
  - rewrite last_length. now rewrite Hp.
  - rewrite last_length. now rewrite Ho.
  - rewrite last_length. now rewrite He.
  - intros i Hi.
    unfold emitted; cbn [history predictions originals error_list].
    destruct (Nat.eq_dec i j) as [->|Hne].
    + exists output, v. rewrite <- Hh.
      split; [exact Hfit|]. split; [exact Hv|]. split; [|split].
      * rewrite <- Hp. apply nth_error_snoc_new.
      * rewrite <- Ho. apply nth_error_snoc_new.
      * rewrite <- He. apply nth_error_snoc_new.
    + assert (Hi' : (i < j)%nat) by lia.
      destruct (Hem i Hi') as (o & a & H1 & H2 & H3 & H4 & H5).
      exists o, a.
      rewrite !nth_error_snoc_old by lia. auto.
Qed.

(** An iteration within range raises only when the fit does. *)
Lemma body_raise train test j st e :
  reached train test j st ->
  (j < length test)%nat ->
  body test j st = Raise e ->
  arima_forecast (train ++ firstn j test) = Raise e.
Proof.
  intros (_ & Hh & _) Hlt Hb.
  unfold body, bind in Hb. rewrite Hh in Hb.
  destruct (arima_forecast (train ++ firstn j test)) as [output|e'];
    [|now injection Hb as ->].
  unfold getitem in Hb.
  destruct (nth_error test j) as [v|] eqn:Hv; [discriminate|].
  apply nth_error_None in Hv. lia.
Qed.

(** The loop from step [k] on: it stops at some step [j], either at the end
    of the range or where the fit raised. *)
Lemma for_range_reached train test n :
  forall k st st' e,
    reached train test k st ->
    (k + n <= length test)%nat ->
    for_range test (seq k n) st = (st', e) ->
    exists j,
      reached train test j st'
      /\ (k <= j)%nat
      /\ ((e = Completed /\ j = (k + n)%nat)
          \/ (exists ex, e = Aborted j ex
                /\ (j < k + n)%nat
                /\ arima_forecast (train ++ firstn j test) = Raise ex)).
Proof.
  induction n as [|n IH]; intros k st st' e Hr Hle Hrun; simpl in Hrun.
  - injection Hrun as <- <-. exists k.
    split; [exact Hr|]. split; [lia|].
    left. split; [reflexivity|lia].
  - destruct (body test k st) as [st1|ex] eqn:Hb.
    + destruct (body_reached _ _ _ _ _ Hr Hb) as [Hr1 _].
      destruct (IH (S k) st1 st' e Hr1 ltac:(lia) Hrun)
        as (j & Hrj & Hkj & Hend).
      exists j. split; [exact Hrj|]. split; [lia|].
      destruct Hend as [[-> ->]|(ex & -> & Hlt & Hfit)].
      * left. split; [reflexivity|lia].
      * right. exists ex. split; [reflexivity|]. split; [lia|exact Hfit].
    + injection Hrun as <- <-. exists k.
      split; [exact Hr|]. split; [lia|].
      right. exists ex. split; [reflexivity|]. split; [lia|].
      eapply body_raise; eauto. lia.
Qed.

Lemma prefix_reached train test t st e :
  (t <= length test)%nat ->
  for_range test (seq 0 t) (init train) = (st, e) ->
  exists j,
    reached train test j st
    /\ ((e = Completed /\ j = t)
        \/ (exists ex, e = Aborted j ex
              /\ (j < t)%nat
              /\ arima_forecast (train ++ firstn j test) = Raise ex)).
Proof.
  intros Ht Hrun.
  destruct (for_range_reached train test t 0 (init train) st e
              (reached_init train test) ltac:(lia) Hrun)
    as (j & Hr & _ & Hend).
  exists j. split; [exact Hr|exact Hend].
Qed.

Lemma walk_forward_reached train test st e :
  walk_forward train test = (st, e) ->
  exists j,
    reached train test j st
    /\ ((e = Completed /\ j = length test)
        \/ (exists ex, e = Aborted j ex
              /\ (j < length test)%nat
              /\ arima_forecast (train ++ firstn j test) = Raise ex)).
Proof.
  intros Hrun. eapply prefix_reached; eauto.
Qed.

Lemma for_range_app test a b st :
  for_range test (a ++ b) st
  = match for_range test a st with
    | (st', Completed) => for_range test b st'
    | stopped => stopped
    end.
Proof.
  revert st. induction a as [|t a IH]; intros st; simpl; auto.
  destruct (body test t st) as [st1|ex]; auto.
Qed.

(** While the fits succeed the loop goes on: the first [t] iterations
    complete. *)
Lemma prefix_completed train test t :
  (t <= length test)%nat ->
  (forall i, (i < t)%nat ->
     exists output, arima_forecast (train ++ firstn i test) = Ok output) ->
  exists st,
    for_range test (seq 0 t) (init train) = (st, Completed)
    /\ reached train test t st.
Proof.
  intros Ht Hfits.
  destruct (for_range test (seq 0 t) (init train)) as [st e] eqn:Hrun.
  destruct (prefix_reached _ _ _ _ _ Ht Hrun) as (j & Hr & Hend).
  destruct Hend as [[-> ->]|(ex & _ & Hlt & Hfit)].
  - exists st. split; auto.
  - destruct (Hfits j Hlt) as (output & Hok). congruence.
Qed.

Lemma firstn_prefix_eq (A : Type) (l l' : list A) (i t : nat) :
  firstn t l = firstn t l' -> (i <= t)%nat -> firstn i l = firstn i l'.
Proof.
  intros H Hi.
  replace i with (Nat.min i t) by lia.
  rewrite <- !firstn_firstn. now rewrite H.
Qed.

(** Entry [t] of [predictions] once the loop has stopped at step [j]. *)
Lemma prediction_some train test j st t :
  reached train test j st ->
  (t < j)%nat ->
  exists output,
    arima_forecast (train ++ firstn t test) = Ok output
    /\ nth_error (predictions st) t = Some (np_exp output).
Proof.
  intros (_ & _ & _ & _ & _ & Hem) Ht.
  destruct (Hem t Ht) as (output & actual & H1 & _ & H3 & _).
  exists output. auto.
Qed.

Lemma prediction_none train test j st t :
  reached train test j st ->
  (j <= t)%nat ->
  nth_error (predictions st) t = None.
Proof.
  intros (_ & _ & Hp & _) Ht. apply nth_error_None. lia.
Qed.

(** A run that stopped at or before step [t] stopped on a failed fit. *)
Lemma stopped_on_raise train test st e j t :
  walk_forward train test = (st, e) ->
  reached train test j st ->
  (e = Completed /\ j = length test)
  \/ (exists ex, e = Aborted j ex
        /\ (j < length test)%nat
        /\ arima_forecast (train ++ firstn j test) = Raise ex) ->
  (t < length test)%nat ->
  (j <= t)%nat ->
  exists ex, arima_forecast (train ++ firstn j test) = Raise ex.
Proof.
  intros _ _ [[_ ->]|(ex & _ & _ & Hfit)] Ht Hj; [lia|].
  now exists ex.
Qed.

(** Formula of line 484 on finite values of the log scale. *)
Lemma percentage_error_finite (x y : R) :
  percentage_error (np_exp (Fin x)) (np_exp (Fin y))
  = Fin (Rabs (exp x - exp y) / exp y * 100)
  /\ 0 <= Rabs (exp x - exp y) / exp y * 100.
Proof.
  pose proof (exp_pos y) as Hy.
  split.
  - unfold percentage_error; simpl.
    destruct (Req_dec_T (exp y) 0) as [H|_]; [lra|].
    reflexivity.
  - apply Rmult_le_pos; [|lra].
    apply Rmult_le_pos; [apply Rabs_pos|].
    left. now apply Rinv_0_lt_compat.
Qed.

(** *** The claims on the walk-forward loop *)

(** C1: the forecast emitted at step t is the same for two test series that
    agree before index t, whatever they hold from index t on; entry t of
    [predictions] is the forecast made from the training values followed by
    the first t test values only. *)
Theorem no_lookahead (train test test' : list npfloat) (t : nat) :
  firstn t test = firstn t test' ->
  (t < length test)%nat ->
  (t < length test')%nat ->
  nth_error (predictions (fst (walk_forward train test))) t
  = nth_error (predictions (fst (walk_forward train test'))) t
  /\ forall p : npfloat,
       nth_error (predictions (fst (walk_forward train test))) t = Some p ->
       exists output,
         arima_forecast (train ++ firstn t test) = Ok output
         /\ p = np_exp output.
Proof.
  intros Heq Ht Ht'.
  destruct (walk_forward train test) as [st e] eqn:Hrun.
  destruct (walk_forward train test') as [st' e'] eqn:Hrun'.
  destruct (walk_forward_reached _ _ _ _ Hrun) as (j & Hr & Hend).
  destruct (walk_forward_reached _ _ _ _ Hrun') as (j' & Hr' & Hend').
  simpl. split.
  - destruct (le_lt_dec j t) as [Hj|Hj]; destruct (le_lt_dec j' t) as [Hj'|Hj'].
    + now rewrite (prediction_none _ _ _ _ _ Hr Hj),
                  (prediction_none _ _ _ _ _ Hr' Hj').
    + (* the first run stopped at [j <= t]: the second fitted the same
         history at step [j] *)
      destruct (stopped_on_raise _ _ _ _ _ _ Hrun Hr Hend Ht Hj) as (ex & Hex).
      destruct (prediction_some _ _ _ _ j Hr' ltac:(lia)) as (o & Ho & _).
      rewrite (firstn_prefix_eq _ _ _ j t Heq Hj) in Hex. congruence.
    + destruct (stopped_on_raise _ _ _ _ _ _ Hrun' Hr' Hend' Ht' Hj')
        as (ex & Hex).
      destruct (prediction_some _ _ _ _ j' Hr ltac:(lia)) as (o & Ho & _).
      rewrite (firstn_prefix_eq _ _ _ j' t Heq Hj') in Ho. congruence.
    + destruct (prediction_some _ _ _ _ t Hr Hj) as (o & Ho & ->).
      destruct (prediction_some _ _ _ _ t Hr' Hj') as (o' & Ho' & ->).
      rewrite Heq in Ho. congruence.
  - intros p Hp.
    destruct (le_lt_dec j t) as [Hj|Hj].
    + rewrite (prediction_none _ _ _ _ _ Hr Hj) in Hp. discriminate.
    + destruct (prediction_some _ _ _ _ t Hr Hj) as (o & Ho & Hn).
      exists o. split; auto. congruence.
Qed.

(** C2: when the fits of steps 0..t-1 succeed, the loop enters step t with
    [history] equal to the training values followed by the first t test
    values (length len(train) + t) and with t entries in each output list;
    step t fits on that history and, on success, appends exactly
    [test_arima[t]] to [history] and one entry to each output list. *)
Theorem history_invariant (train test : list npfloat) (t : nat) :
  (t <= length test)%nat ->
  (forall i, (i < t)%nat ->
     exists output, arima_forecast (train ++ firstn i test) = Ok output) ->
  exists st,
    for_range test (seq 0 t) (init train) = (st, Completed)
    /\ history st = train ++ firstn t test
    /\ length (history st) = (length train + t)%nat
    /\ length (predictions st) = t
    /\ length (originals st) = t
    /\ length (error_list st) = t
    /\ forall output v,
         arima_forecast (train ++ firstn t test) = Ok output ->
         nth_error test t = Some v ->
         exists st',
           body test t st = Ok st'
           /\ history st' = history st ++ [v]
           /\ predictions st' = predictions st ++ [np_exp output]
           /\ originals st' = originals st ++ [np_exp v]
           /\ error_list st'
              = error_list st ++ [percentage_error (np_exp output) (np_exp v)].
Proof.
  intros Ht Hfits.
  destruct (prefix_completed train test t Ht Hfits) as (st & Hrun & Hr).
  exists st. split; [exact Hrun|].
  destruct Hr as (_ & Hh & Hp & Ho & He & _).
  repeat (split; [assumption|]).
  split.
  { rewrite Hh, length_app, length_firstn. lia. }
  repeat (split; [assumption|]).
  intros output v Hfit Hv.
  unfold body, bind, getitem. rewrite Hh, Hfit, Hv.
  eexists. split; [reflexivity|]. cbn. auto.
Qed.

(** C6: every entry of [error_list] is |predicted - actual| / actual * 100 of
    the emitted prediction and true value, which are the exponentials of the
    forecast and of [test_arima[t]]; for finite values on the log scale it
    is a finite number >= 0. *)
Theorem emitted_error_formula (train test : list npfloat) (t : nat)
    (e : npfloat) :
  nth_error (error_list (fst (walk_forward train test))) t = Some e ->
  exists output actual,
    arima_forecast (train ++ firstn t test) = Ok output
    /\ nth_error test t = Some actual
    /\ nth_error (predictions (fst (walk_forward train test))) t
       = Some (np_exp output)
    /\ nth_error (originals (fst (walk_forward train test))) t
       = Some (np_exp actual)
    /\ e = fmul (fdiv (fabs (fsub (np_exp output) (np_exp actual)))
                      (np_exp actual))
                (Fin 100)
    /\ forall x y, output = Fin x -> actual = Fin y ->
         e = Fin (Rabs (exp x - exp y) / exp y * 100)
         /\ fnonneg e.
Proof.
  destruct (walk_forward train test) as [st en] eqn:Hrun.
  destruct (walk_forward_reached _ _ _ _ Hrun) as (j & Hr & _).
  simpl. intros He.
  destruct Hr as (_ & _ & _ & _ & Hlen & Hem).
  assert (Ht : (t < j)%nat).
  { rewrite <- Hlen. apply nth_error_Some. now rewrite He. }
  destruct (Hem t Ht) as (output & actual & H1 & H2 & H3 & H4 & H5).
  exists output, actual.
  rewrite He in H5. injection H5 as ->.
  repeat (split; [assumption|]).
  split; [reflexivity|].
  intros x y -> ->.
  destruct (percentage_error_finite x y) as [Hf Hpos].
  rewrite Hf. split; [reflexivity|exact Hpos].
Qed.

(** C7, amended: when the fits of steps 0..t-1 succeed and the fit of step t
    raises, the cell ends in that exception with the loop variable at t; the
    lists are those left by the first t iterations, so the steps 0..t-1 stay
    as emitted, and [history] is the training values followed by the first t
    test values: [test_arima[t]] has not been appended. *)
Theorem abort_keeps_completed_steps (train test : list npfloat) (t : nat)
    (ex : exn) :
  (t < length test)%nat ->
  (forall i, (i < t)%nat ->
     exists output, arima_forecast (train ++ firstn i test) = Ok output) ->
  arima_forecast (train ++ firstn t test) = Raise ex ->
  exists st,
    walk_forward train test = (st, Aborted t ex)
    /\ for_range test (seq 0 t) (init train) = (st, Completed)
    /\ history st = train ++ firstn t test
    /\ length (predictions st) = t
    /\ length (originals st) = t
    /\ length (error_list st) = t
    /\ forall i, (i < t)%nat -> emitted train test st i.
Proof.
  intros Ht Hfits Hraise.
  destruct (prefix_completed train test t ltac:(lia) Hfits)
    as (st & Hrun & Hr).
  exists st. split.
  - unfold walk_forward.
    replace (length test) with (t + S (length test - S t))%nat by lia.
    rewrite seq_app, for_range_app, Hrun. simpl.
    destruct Hr as (_ & Hh & _).
    unfold body, bind. now rewrite Hh, Hraise.
  - split; [exact Hrun|].
    destruct Hr as (_ & Hh & Hp & Ho & He & Hem). auto 10.
Qed.

End Loop.

(** *** Runs with concrete forecasters *)

(** A forecaster that repeats the last value of the history. *)
Definition persistence (h : list npfloat) : result npfloat :=
  Ok (last h (Fin 0)).

(** The same, except that the fit fails on a history of two values. *)
Definition fails_on_two (h : list npfloat) : result npfloat :=
  if Nat.eqb (length h) 2 then Raise LinAlgError else persistence h.

Lemma no_lookahead_witness :
  nth_error (predictions
               (fst (walk_forward persistence [Fin 0] [Fin 1; Fin 2]))) 1
  = nth_error (predictions
                 (fst (walk_forward persistence [Fin 0] [Fin 1; Fin 5]))) 1
  /\ forall p : npfloat,
       nth_error (predictions
                    (fst (walk_forward persistence [Fin 0] [Fin 1; Fin 2]))) 1
       = Some p ->
       exists output,
         persistence ([Fin 0] ++ firstn 1 [Fin 1; Fin 2]) = Ok output
         /\ p = np_exp output.
Proof.
  apply (no_lookahead persistence [Fin 0] [Fin 1; Fin 2] [Fin 1; Fin 5] 1).
  - reflexivity.
  - simpl; lia.
  - simpl; lia.
Defined.

Lemma history_invariant_witness :
  exists st,
    for_range persistence [Fin 1; Fin 2] (seq 0 1) (init [Fin 0])
    = (st, Completed)
    /\ history st = [Fin 0] ++ firstn 1 [Fin 1; Fin 2]
    /\ length (history st) = (length [Fin 0] + 1)%nat
    /\ length (predictions st) = 1%nat
    /\ length (originals st) = 1%nat
    /\ length (error_list st) = 1%nat
    /\ forall output v,
         persistence ([Fin 0] ++ firstn 1 [Fin 1; Fin 2]) = Ok output ->
         nth_error [Fin 1; Fin 2] 1 = Some v ->
         exists st',
           body persistence [Fin 1; Fin 2] 1 st = Ok st'
           /\ history st' = history st ++ [v]
           /\ predictions st' = predictions st ++ [np_exp output]
           /\ originals st' = originals st ++ [np_exp v]
           /\ error_list st'
              = error_list st ++ [percentage_error (np_exp output) (np_exp v)].
Proof.
  apply (history_invariant persistence [Fin 0] [Fin 1; Fin 2] 1).
  - simpl; lia.
  - intros i Hi. eexists. reflexivity.
Defined.

Lemma emitted_error_formula_witness :
  exists output actual,
    persistence ([Fin 0] ++ firstn 0 [Fin 1]) = Ok output
    /\ nth_error [Fin 1] 0 = Some actual
    /\ nth_error (predictions (fst (walk_forward persistence [Fin 0] [Fin 1]))) 0
       = Some (np_exp output)
    /\ nth_error (originals (fst (walk_forward persistence [Fin 0] [Fin 1]))) 0
       = Some (np_exp actual)
    /\ percentage_error (Fin (exp 0)) (Fin (exp 1))
       = fmul (fdiv (fabs (fsub (np_exp output) (np_exp actual)))
                    (np_exp actual))
              (Fin 100)
    /\ forall x y, output = Fin x -> actual = Fin y ->
         percentage_error (Fin (exp 0)) (Fin (exp 1))
         = Fin (Rabs (exp x - exp y) / exp y * 100)
         /\ fnonneg (percentage_error (Fin (exp 0)) (Fin (exp 1))).
Proof.
  apply (emitted_error_formula persistence [Fin 0] [Fin 1] 0
           (percentage_error (Fin (exp 0)) (Fin (exp 1)))).
  reflexivity.
Defined.

Lemma abort_keeps_completed_steps_witness :
  exists st,
    walk_forward fails_on_two [Fin 1] [Fin 2; Fin 3]
    = (st, Aborted 1 LinAlgError)
    /\ for_range fails_on_two [Fin 2; Fin 3] (seq 0 1) (init [Fin 1])
       = (st, Completed)
    /\ history st = [Fin 1] ++ firstn 1 [Fin 2; Fin 3]
    /\ length (predictions st) = 1%nat
    /\ length (originals st) = 1%nat
    /\ length (error_list st) = 1%nat
    /\ forall i, (i < 1)%nat ->
         emitted fails_on_two [Fin 1] [Fin 2; Fin 3] st i.
Proof.
  apply (abort_keeps_completed_steps fails_on_two [Fin 1] [Fin 2; Fin 3] 1
           LinAlgError).
  - simpl; lia.
  - intros i Hi. assert (i = 0)%nat as -> by lia. eexists. reflexivity.
  - reflexivity.
Defined.

(** C7, as stated, fails: the fit of step 1 raises, the cell stops there, and
    [history] holds the training value and [test_arima[0]] only;
    [test_arima[1]] was not appended. *)
Lemma failed_step_not_revealed :
  snd (walk_forward fails_on_two [Fin 1] [Fin 2; Fin 3])
  = Aborted 1 LinAlgError
  /\ history (fst (walk_forward fails_on_two [Fin 1] [Fin 2; Fin 3]))
     = [Fin 1; Fin 2]
  /\ history (fst (walk_forward fails_on_two [Fin 1] [Fin 2; Fin 3]))
     <> [Fin 1; Fin 2; Fin 3].
Proof.
  repeat split.
  intros H. discriminate H.
Qed.

End WalkForward.

(** ** Kalman filter (cells at lines 831-846) *)

Module Kalman.

Record FilterState : Type := {
  mean : R;
  covariance : R
}.

(** The parameters of a run: transition and observation coefficients,
    process and observation noise variances, initial mean and variance. *)
Record params : Type := {
  F : R;
  H : R;
  Q : R;
  Rn : R;
  mu0 : R;
  P0 : R
}.

Definition initial (p : params) : FilterState :=
  {| mean := mu0 p; covariance := P0 p |}.

(** Modelled from the spec: the predict step of [KalmanFilter.filter], which
    is code of the pykalman library and not of the notebook. *)
Definition predict (p : params) (s : FilterState) : FilterState :=
  {| mean := F p * mean s;
     covariance := F p * F p * covariance s + Q p |}.

(** Modelled from the spec: innovation, its variance and the gain of the
    update step of [KalmanFilter.filter]. *)
Definition innovation (p : params) (pred : FilterState) (z : R) : R :=
  z - H p * mean pred.

Definition innovation_variance (p : params) (pred : FilterState) : R :=
  H p * H p * covariance pred + Rn p.

(** Division on [R] is total; the gain is 0 where the innovation variance
    is 0. *)
Definition gain (p : params) (pred : FilterState) : R :=
  H p * covariance pred / innovation_variance p pred.

(** Modelled from the spec: the update step of [KalmanFilter.filter]. *)
Definition update (p : params) (pred : FilterState) (z : R) : FilterState :=
  {| mean := mean pred + gain p pred * innovation p pred z;
     covariance := (1 - gain p pred * H p) * covariance pred |}.

(** Modelled from the spec: [KalmanFilter.filter], one predict/update cycle
    per observation, each new state appended to the trajectory. *)
Fixpoint filter_from (p : params) (s : FilterState) (observations : list R)
  : list FilterState :=
  match observations with
  | [] => []
  | z :: zs =>
      let s' := update p (predict p s) z in
      s' :: filter_from p s' zs
  end.

Definition filter (p : params) (observations : list R) : list FilterState :=
  filter_from p (initial p) observations.

(** Lines 831-836: the parameters the notebook passes, the initial mean being
    [df['Close'].values[0]]. *)
Definition notebook_params (first_close : R) : params :=
  {| F := 1;
     H := 1;
     Q := 1 / 100;
     Rn := 1;
     mu0 := first_close;
     P0 := 1 |}.

(** Lines 831-846: [state_means] of the filter run on the Close column;
    indexing an empty column raises. *)
Definition notebook_state_means (close : list R) : result (list R) :=
  match close with
  | [] => Raise IndexError
  | first_close :: _ =>
      Ok (map mean (filter (notebook_params first_close) close))
  end.

Lemma predict_nonneg (p : params) (s : FilterState) :
  0 <= Q p -> 0 <= covariance s -> 0 <= covariance (predict p s).
Proof.
  intros HQ Hs. simpl.
  assert (0 <= F p * F p) by nra.
  nra.
Qed.

(** The updated variance is the predicted one scaled by R / S.  Where S is
    zero the predicted variance or the observation coefficient is zero, and
    the updated variance is >= 0 whatever the gain is taken to be there. *)
Lemma scaled_variance_nonneg (h Pp r K : R) :
  0 <= Pp -> 0 <= r ->
  (h * h * Pp + r <> 0 -> K = h * Pp / (h * h * Pp + r)) ->
  0 <= (1 - K * h) * Pp.
Proof.
  intros HP Hr HK.
  assert (Hhh : 0 <= h * h) by nra.
  assert (HhP : 0 <= h * h * Pp) by nra.
  destruct (Req_dec_T (h * h * Pp + r) 0) as [H0|Hnz].
  - assert (Hz : h * h * Pp = 0) by lra.
    apply Rmult_integral in Hz. destruct Hz as [Hz|Hz].
    + apply Rmult_integral in Hz.
      assert (h = 0) as -> by tauto. nra.
    + rewrite Hz. lra.
  - rewrite (HK Hnz).
    replace ((1 - h * Pp / (h * h * Pp + r) * h) * Pp)
      with (Pp * r / (h * h * Pp + r)) by (field; exact Hnz).
    apply Rmult_le_pos; [nra|].
    left. apply Rinv_0_lt_compat. lra.
Qed.

Lemma update_nonneg (p : params) (pred : FilterState) (z : R) :
  0 <= Rn p -> 0 <= covariance pred -> 0 <= covariance (update p pred z).
Proof.
  intros HR HP. simpl.
  apply (scaled_variance_nonneg (H p) (covariance pred) (Rn p)); auto.
Qed.

Lemma filter_from_nonneg (p : params) (observations : list R) :
  0 <= Q p -> 0 <= Rn p ->
  forall s, 0 <= covariance s ->
    Forall (fun s' => 0 <= covariance s') (filter_from p s observations).
Proof.
  intros HQ HR.
  induction observations as [|z zs IH]; intros s Hs; simpl.
  - constructor.
  - assert (Hs' : 0 <= covariance (update p (predict p s) z)).
    { apply update_nonneg; auto. now apply predict_nonneg. }
    constructor; auto.
Qed.

(** An observation equal to the predicted mean leaves the mean in place. *)
Lemma update_mean_fixed (p : params) (pred : FilterState) (z : R) :
  H p = 1 -> mean pred = z ->
  innovation p pred z = 0 /\ mean (update p pred z) = z.
Proof.
  intros HH Hm.
  assert (Hy : innovation p pred z = 0).
  { unfold innovation. rewrite HH, Hm. ring. }
  split; auto. simpl. rewrite Hy, Hm. ring.
Qed.

(** C5: with P0, Q and R non-negative, every state of the trajectory has a
    covariance >= 0. *)
Theorem covariance_nonneg (p : params) (observations : list R) :
  0 <= P0 p -> 0 <= Q p -> 0 <= Rn p ->
  Forall (fun s => 0 <= covariance s) (filter p observations).
Proof.
  intros HP HQ HR. unfold filter.
  apply filter_from_nonneg; auto.
Qed.

Lemma covariance_nonneg_witness :
  Forall (fun s => 0 <= covariance s)
         (filter (notebook_params 10) [10; 11; 9]).
Proof.
  apply (covariance_nonneg (notebook_params 10) [10; 11; 9]); simpl; lra.
Defined.

(** C10: the notebook runs the filter with P0 = 1, Q = 0.01, R = 1 and the
    initial mean equal to the first observation; the first innovation is
    zero and the first state mean is the first observation. *)
Theorem first_state_mean_is_first_observation (z0 : R) (zs : list R) :
  innovation (notebook_params z0)
             (predict (notebook_params z0) (initial (notebook_params z0))) z0
  = 0
  /\ P0 (notebook_params z0) = 1
  /\ Q (notebook_params z0) = 1 / 100
  /\ Rn (notebook_params z0) = 1
  /\ exists rest,
       notebook_state_means (z0 :: zs) = Ok (z0 :: rest).
Proof.
  destruct (update_mean_fixed (notebook_params z0)
              (predict (notebook_params z0) (initial (notebook_params z0))) z0)
    as [Hy Hm].
  { reflexivity. }
  { simpl. ring. }
  split; [exact Hy|].
  repeat (split; [reflexivity|]).
  unfold notebook_state_means, filter.
  cbn [filter_from map]. rewrite Hm.
  eexists. reflexivity.
Qed.

End Kalman.

(** ** Error summaries (line 499, and the calls at lines 812 and 906) *)

Module Errors.

(** [sum(l)]: the built-in starts from 0 and adds from the left. *)
Definition py_sum (l : list npfloat) : npfloat :=
  fold_left fadd l (Fin 0).

(** Line 499: [sum(error_list)/float(len(error_list))].  On an empty list
    this is [0/0.0], which raises. *)
Definition mean_error (error_list : list npfloat) : result npfloat :=
  if Nat.eqb (length error_list) 0
  then Raise ZeroDivisionError
  else Ok (fdiv (py_sum error_list) (Fin (INR (length error_list)))).

(** Modelled from the spec: [mean_squared_error] of scikit-learn, called at
    lines 812 and 906, on (predicted, actual) pairs: the mean of the squared
    differences, and a failure on zero pairs. *)
Definition mean_squared_error (pairs : list (R * R)) : result R :=
  match pairs with
  | [] => Raise ValueError
  | _ =>
      Ok (fold_right Rplus 0
            (map (fun pa => (fst pa - snd pa) * (fst pa - snd pa)) pairs)
          / INR (length pairs))
  end.

(** The percentage error of a pair, as a real number. *)
Definition pct (pa : R * R) : R :=
  Rabs (fst pa - snd pa) / snd pa * 100.

Definition Rsum (l : list R) : R := fold_right Rplus 0 l.

Lemma fold_left_fadd_finite (es : list R) (a : R) :
  fold_left fadd (map Fin es) (Fin a) = Fin (a + Rsum es).
Proof.
  revert a. induction es as [|e es IH]; intros a; simpl.
  - f_equal. ring.
  - rewrite IH. f_equal. ring.
Qed.

Lemma mean_error_finite (es : list R) :
  es <> [] ->
  mean_error (map Fin es) = Ok (Fin (Rsum es / INR (length es))).
Proof.
  intros Hne. unfold mean_error, py_sum.
  rewrite length_map.
  destruct es as [|e es]; [contradiction|].
  cbn [length Nat.eqb].
  rewrite fold_left_fadd_finite.
  cbn [fdiv].
  destruct (Req_dec_T (INR (S (length es))) 0) as [H0|_].
  - pose proof (pos_INR (length es)). rewrite S_INR in H0. lra.
  - replace (0 + Rsum (e :: es)) with (Rsum (e :: es)) by ring.
    reflexivity.
Qed.

Lemma percentage_error_pair (pa : R * R) :
  0 < snd pa ->
  WalkForward.percentage_error (Fin (fst pa)) (Fin (snd pa)) = Fin (pct pa).
Proof.
  intros Hpos. unfold WalkForward.percentage_error, pct; simpl.
  destruct (Req_dec_T (snd pa) 0) as [H0|_]; [lra|reflexivity].
Qed.

(** C9: both summaries fail on an empty sequence; on a non-empty sequence of
    (predicted, actual) pairs with positive actual values the first is the
    arithmetic mean of the per-pair percentage errors and the second the
    mean of the squared differences. *)
Theorem summaries (pairs : list (R * R)) :
  mean_error [] = Raise ZeroDivisionError
  /\ mean_squared_error [] = Raise ValueError
  /\ (pairs <> [] ->
      Forall (fun pa => 0 < snd pa) pairs ->
      mean_error
        (map (fun pa => WalkForward.percentage_error (Fin (fst pa)) (Fin (snd pa)))
             pairs)
      = Ok (Fin (Rsum (map pct pairs) / INR (length pairs)))
      /\ mean_squared_error pairs
         = Ok (Rsum (map (fun pa => (fst pa - snd pa) * (fst pa - snd pa)) pairs)
               / INR (length pairs))).
Proof.
  split; [reflexivity|]. split; [reflexivity|].
  intros Hne Hpos. split.
  - assert (Hmap : map (fun pa => WalkForward.percentage_error
                                    (Fin (fst pa)) (Fin (snd pa))) pairs
                   = map Fin (map pct pairs)).
    { rewrite map_map. apply map_ext_in. intros pa Hin.
      apply percentage_error_pair.
      rewrite Forall_forall in Hpos. now apply Hpos. }
    rewrite Hmap, mean_error_finite.
    + now rewrite length_map.
    + destruct pairs; [contradiction|discriminate].
  - destruct pairs as [|pa pairs]; [contradiction|reflexivity].
Qed.

Lemma summaries_witness :
  mean_error [] = Raise ZeroDivisionError
  /\ mean_squared_error [] = Raise ValueError
  /\ ([(3, 2); (1, 2)] <> [] ->
      Forall (fun pa => 0 < snd pa) [(3, 2); (1, 2)] ->
      mean_error
        (map (fun pa => WalkForward.percentage_error (Fin (fst pa)) (Fin (snd pa)))
             [(3, 2); (1, 2)])
      = Ok (Fin (Rsum (map pct [(3, 2); (1, 2)]) / INR (length [(3, 2); (1, 2)])))
      /\ mean_squared_error [(3, 2); (1, 2)]
         = Ok (Rsum (map (fun pa => (fst pa - snd pa) * (fst pa - snd pa))
                         [(3, 2); (1, 2)])
               / INR (length [(3, 2); (1, 2)]))).
Proof.
  apply (summaries [(3, 2); (1, 2)]).
Defined.

End Errors.

(** ** Train and test split (cell at lines 448-449) *)

Module Split.

(** A bound of a Python slice over a sequence of length [n]: a negative
    bound counts from the end, and the result is clamped to [0, n]. *)
Definition slice_bound (n : nat) (i : Z) : nat :=
  if (i <? 0)%Z
  then Z.to_nat (Z.max 0 (i + Z.of_nat n))
  else Nat.min (Z.to_nat i) n.

(** [l[start:stop]] by position. *)
Definition py_slice {A : Type} (l : list A) (start stop : Z) : list A :=
  let a := slice_bound (length l) start in
  let b := slice_bound (length l) stop in
  firstn (b - a) (skipn a l).

(** Line 448: [size = int(len(ts_log)-14)]. *)
Definition split_size {A : Type} (ts_log : list A) : Z :=
  (Z.of_nat (length ts_log) - 14)%Z.

(** Line 449: [ts_log[0:size]] and [ts_log[size:len(ts_log)]]. *)
Definition train_arima {A : Type} (ts_log : list A) : list A :=
  py_slice ts_log 0 (split_size ts_log).

Definition test_arima {A : Type} (ts_log : list A) : list A :=
  py_slice ts_log (split_size ts_log) (Z.of_nat (length ts_log)).

(** The position where the split falls. *)
Definition cut {A : Type} (ts_log : list A) : nat :=
  slice_bound (length ts_log) (split_size ts_log).

Lemma slice_bound_zero (n : nat) : slice_bound n 0 = 0%nat.
Proof. unfold slice_bound. simpl. lia. Qed.

Lemma slice_bound_length (n : nat) : slice_bound n (Z.of_nat n) = n.
Proof.
  unfold slice_bound.
  destruct (Z.ltb_spec (Z.of_nat n) 0); lia.
Qed.

Lemma slice_bound_le (n : nat) (i : Z) : (slice_bound n i <= n)%nat.
Proof.
  unfold slice_bound. destruct (Z.ltb_spec i 0); lia.
Qed.

Lemma train_is_firstn {A : Type} (ts_log : list A) :
  train_arima ts_log = firstn (cut ts_log) ts_log.
Proof.
  unfold train_arima, py_slice, cut.
  rewrite slice_bound_zero, Nat.sub_0_r. reflexivity.
Qed.

Lemma test_is_skipn {A : Type} (ts_log : list A) :
  test_arima ts_log = skipn (cut ts_log) ts_log.
Proof.
  unfold test_arima, py_slice, cut.
  rewrite slice_bound_length.
  apply firstn_all2. rewrite length_skipn. lia.
Qed.

Lemma cut_value {A : Type} (ts_log : list A) :
  cut ts_log
  = if (length ts_log <? 14)%nat
    then (2 * length ts_log - 14)%nat
    else (length ts_log - 14)%nat.
Proof.
  unfold cut, split_size, slice_bound.
  destruct (Nat.ltb_spec (length ts_log) 14);
    destruct (Z.ltb_spec (Z.of_nat (length ts_log) - 14) 0); lia.
Qed.

(** X1: the two slices partition the series, whatever its length: nothing is
    lost and nothing is in both. *)
Theorem split_partition {A : Type} (ts_log : list A) :
  train_arima ts_log ++ test_arima ts_log = ts_log.
Proof.
  rewrite train_is_firstn, test_is_skipn. apply firstn_skipn.
Qed.

(** X2: with at least 14 values the test part is the last 14 and the training
    part everything before. *)
Theorem split_sizes {A : Type} (ts_log : list A) :
  (14 <= length ts_log)%nat ->
  length (train_arima ts_log) = (length ts_log - 14)%nat
  /\ length (test_arima ts_log) = 14%nat
  /\ test_arima ts_log = skipn (length ts_log - 14) ts_log.
Proof.
  intros Hn.
  rewrite train_is_firstn, test_is_skipn, cut_value.
  destruct (Nat.ltb_spec (length ts_log) 14); [lia|].
  rewrite length_firstn, length_skipn. repeat split; lia.
Qed.

Lemma split_sizes_witness :
  length (train_arima (repeat 0%nat 20)) = (length (repeat 0%nat 20) - 14)%nat
  /\ length (test_arima (repeat 0%nat 20)) = 14%nat
  /\ test_arima (repeat 0%nat 20)
     = skipn (length (repeat 0%nat 20) - 14) (repeat 0%nat 20).
Proof.
  apply (split_sizes (repeat 0%nat 20)). simpl. lia.
Defined.

(** X3: with fewer than 14 values [size] is negative and counts from the end:
    the test part is not the whole series but what follows the first
    2 * len - 14 values (the whole series only when len <= 7). *)
Theorem split_short {A : Type} (ts_log : list A) :
  (length ts_log < 14)%nat ->
  length (train_arima ts_log) = (2 * length ts_log - 14)%nat
  /\ length (test_arima ts_log)
     = Nat.min (length ts_log) (14 - length ts_log).
Proof.
  intros Hn.
  rewrite train_is_firstn, test_is_skipn, cut_value.
  destruct (Nat.ltb_spec (length ts_log) 14); [|lia].
  rewrite length_firstn, length_skipn. split; lia.
Qed.

Lemma split_short_witness :
  length (train_arima (repeat 0%nat 10)) = (2 * length (repeat 0%nat 10) - 14)%nat
  /\ length (test_arima (repeat 0%nat 10))
     = Nat.min (length (repeat 0%nat 10)) (14 - length (repeat 0%nat 10)).
Proof.
  apply (split_short (repeat 0%nat 10)). simpl. lia.
Defined.

End Split.

(** ** The forecast cells run in sequence (lines 448-499) *)

Module Pipeline.

Import WalkForward.

Section Run.

Variable arima_forecast : list npfloat -> result npfloat.

(** Lines 448-489: split the log series, then walk forward over the test
    part. *)
Definition forecast_cells (ts_log : list npfloat) : state * ending :=
  walk_forward arima_forecast
    (Split.train_arima ts_log) (Split.test_arima ts_log).

(** Line 499, run after the loop on the [error_list] it left. *)
Definition mean_error_cell (st : state) : result npfloat :=
  Errors.mean_error (error_list st).

Lemma firstn_add (A : Type) (c i : nat) (l : list A) :
  firstn (c + i) l = firstn c l ++ firstn i (skipn c l).
Proof.
  revert l. induction c as [|c IH]; intros l; simpl; auto.
  destruct l as [|a l]; simpl.
  - now rewrite firstn_nil.
  - now rewrite IH.
Qed.

(** The history fitted at step [i] is a prefix of the log series. *)
Lemma history_is_prefix (ts_log : list npfloat) (i : nat) :
  Split.train_arima ts_log ++ firstn i (Split.test_arima ts_log)
  = firstn (Split.cut ts_log + i) ts_log.
Proof.
  rewrite Split.train_is_firstn, Split.test_is_skipn.
  symmetry. apply firstn_add.
Qed.


(** X4: when every fit succeeds the cell completes: one prediction per test
    value, each made from the prefix of the log series that ends just before
    the value predicted, and the final [history] is the whole log series. *)
Theorem forecast_cells_complete (ts_log : list npfloat) :
  (forall k, (Split.cut ts_log <= k < length ts_log)%nat ->
     exists output, arima_forecast (firstn k ts_log) = Ok output) ->
  exists st,
    forecast_cells ts_log = (st, Completed)
    /\ history st = ts_log
    /\ length (predictions st) = (length ts_log - Split.cut ts_log)%nat
    /\ forall i, (i < length ts_log - Split.cut ts_log)%nat ->
         exists output,
           arima_forecast (firstn (Split.cut ts_log + i) ts_log) = Ok output
           /\ nth_error (predictions st) i = Some (np_exp output).
Proof.
  intros Hfits.
  assert (Hlen : length (Split.test_arima ts_log)
                 = (length ts_log - Split.cut ts_log)%nat).
  { rewrite Split.test_is_skipn. apply length_skipn. }
  destruct (prefix_completed arima_forecast
              (Split.train_arima ts_log) (Split.test_arima ts_log)
              (length (Split.test_arima ts_log)) (le_n _))
    as (st & Hrun & Hr).
  { intros i Hi. rewrite history_is_prefix. apply Hfits. lia. }
  exists st. split; [exact Hrun|].
  pose proof Hr as (_ & Hh & Hp & _ & _ & _).
  split; [|split].
  - rewrite Hh, firstn_all. apply Split.split_partition.
  - now rewrite Hp.
  - intros i Hi.
    destruct (prediction_some arima_forecast _ _ _ _ i Hr ltac:(lia))
      as (o & Ho & Hn).
    exists o. rewrite <- history_is_prefix. auto.
Qed.


(** X6: the mean-error cell raises ZeroDivisionError exactly when the loop
    emitted nothing: the test part is empty or the very first fit raised. *)
Theorem mean_error_cell_raises (train test : list npfloat) :
  mean_error_cell (fst (walk_forward arima_forecast train test))
  = Raise ZeroDivisionError
  <-> test = [] \/ exists ex, arima_forecast train = Raise ex.
Proof.
  destruct (walk_forward arima_forecast train test) as [st e] eqn:Hrun.
  destruct (walk_forward_reached arima_forecast _ _ _ _ Hrun)
    as (j & Hr & Hend).
  pose proof Hr as (Hj & _ & _ & _ & He & Hem).
  unfold mean_error_cell, Errors.mean_error. simpl. rewrite He.
  split.
  - destruct j as [|j]; [|simpl; discriminate].
    intros _.
    destruct Hend as [[_ Hlen]|(ex & _ & _ & Hfit)].
    + left. destruct test; [reflexivity|discriminate].
    + right. exists ex. simpl in Hfit. now rewrite app_nil_r in Hfit.
  - intros [->|(ex & Hex)].
    + simpl in Hj. assert (j = 0)%nat as -> by lia. reflexivity.
    + destruct j as [|j]; [reflexivity|].
      destruct (Hem 0%nat ltac:(lia)) as (o & a & Ho & _).
      simpl in Ho. rewrite app_nil_r in Ho. congruence.
Qed.

(** X7: however the loop ends, the three output lists have the same length,
    at most the length of the test part, and [history] is the training part
    followed by as many test values as there are predictions. *)
Theorem lists_stay_aligned (train test : list npfloat) :
  length (originals (fst (walk_forward arima_forecast train test)))
  = length (predictions (fst (walk_forward arima_forecast train test)))
  /\ length (error_list (fst (walk_forward arima_forecast train test)))
     = length (predictions (fst (walk_forward arima_forecast train test)))
  /\ (length (predictions (fst (walk_forward arima_forecast train test)))
      <= length test)%nat
  /\ history (fst (walk_forward arima_forecast train test))
     = train
       ++ firstn
            (length (predictions (fst (walk_forward arima_forecast train test))))
            test.
Proof.
  destruct (walk_forward arima_forecast train test) as [st e] eqn:Hrun.
  destruct (walk_forward_reached arima_forecast _ _ _ _ Hrun)
    as (j & (Hj & Hh & Hp & Ho & He & _) & _).
  simpl. rewrite Hp, Ho, He. auto.
Qed.

End Run.

Lemma forecast_cells_complete_witness :
  exists st,
    forecast_cells persistence [Fin 1; Fin 2; Fin 3] = (st, Completed)
    /\ history st = [Fin 1; Fin 2; Fin 3]
    /\ length (predictions st)
       = (length [Fin 1; Fin 2; Fin 3] - Split.cut [Fin 1; Fin 2; Fin 3])%nat
    /\ forall i,
         (i < length [Fin 1; Fin 2; Fin 3] - Split.cut [Fin 1; Fin 2; Fin 3])%nat ->
         exists output,
           persistence
             (firstn (Split.cut [Fin 1; Fin 2; Fin 3] + i) [Fin 1; Fin 2; Fin 3])
           = Ok output
           /\ nth_error (predictions st) i = Some (np_exp output).
Proof.
  apply (forecast_cells_complete persistence [Fin 1; Fin 2; Fin 3]).
  intros k Hk. eexists. reflexivity.
Defined.


End Pipeline.

(** ** The percentage error on the log scale (lines 478-484, 499) *)

Module ErrorFormula.

Import WalkForward.









End ErrorFormula.

(** ** Log returns: what [ts_log_diff] keeps and drops (lines 302-315) *)

Module Returns.

Import Transform.

(** The differences of consecutive entries in percentage units, [prev]
    being the entry before the first one. *)
Fixpoint returns_from (prev : npfloat) (s : series) : series :=
  match s with
  | [] => []
  | x :: rest => fmul (fsub x prev) (Fin 100) :: returns_from x rest
  end.

Lemma fsub_nan_r (a : npfloat) : fsub a NaN = NaN.
Proof. destruct a; reflexivity. Qed.

Lemma fsub_nan_l (b : npfloat) : fsub NaN b = NaN.
Proof. reflexivity. Qed.

Lemma scaled_pairs (a : npfloat) (s : series) :
  map (fun x => fmul x (Fin 100))
      (map (fun p => fsub (fst p) (snd p)) (combine s (a :: s)))
  = returns_from a s.
Proof.
  revert a. induction s as [|x s IH]; intros a; simpl; auto.
  now rewrite IH.
Qed.

(** The first entry of the shifted difference is always NaN and is dropped;
    the others are the consecutive differences. *)
Lemma ts_log_diff_cons (a : npfloat) (s : series) :
  ts_log_diff (a :: s) = dropna (returns_from a s).
Proof.
  unfold ts_log_diff, log_diff_lag, series_sub, shift, series_mul.
  cbn [length repeat app firstn combine map fst snd].
  rewrite <- combine_firstn_l, fsub_nan_r.
  cbn [fmul dropna filter isnan negb].
  fold (dropna (map (fun x => fmul x (Fin 100))
                    (map (fun p => fsub (fst p) (snd p)) (combine s (a :: s))))).
  now rewrite scaled_pairs.
Qed.

Lemma last_cons (A : Type) (b : A) (l : list A) (a : A) :
  last (b :: l) a = last l b.
Proof.
  destruct l as [|c l]; [reflexivity|].
  change (last (b :: c :: l) a) with (last (c :: l) a).
  revert c. induction l as [|x l IH]; intros c; [reflexivity|].
  change (last (c :: x :: l) a) with (last (x :: l) a).
  change (last (c :: x :: l) b) with (last (x :: l) b).
  apply IH.
Qed.

Lemma returns_from_app (a : npfloat) (s1 s2 : series) :
  returns_from a (s1 ++ s2)
  = returns_from a s1 ++ returns_from (last s1 a) s2.
Proof.
  revert a. induction s1 as [|x s1 IH]; intros a; auto.
  rewrite last_cons. cbn [app returns_from].
  now rewrite IH.
Qed.

Lemma dropna_app (s1 s2 : series) :
  dropna (s1 ++ s2) = dropna s1 ++ dropna s2.
Proof. apply filter_app. Qed.

Lemma ts_log_diff_after_nan (s : series) :
  ts_log_diff (NaN :: s) = ts_log_diff s.
Proof.
  rewrite ts_log_diff_cons.
  destruct s as [|b s]; [reflexivity|].
  cbn [returns_from]. rewrite fsub_nan_r.
  cbn [fmul dropna filter isnan negb].
  now rewrite ts_log_diff_cons.
Qed.

(** A missing entry cuts the series in two: the result is the returns of
    the part before it followed by the returns of the part after it. *)
Lemma nan_splits (s1 s2 : series) :
  ts_log_diff (s1 ++ NaN :: s2) = ts_log_diff s1 ++ ts_log_diff s2.
Proof.
  destruct s1 as [|a s1].
  - simpl app. rewrite ts_log_diff_after_nan. reflexivity.
  - rewrite <- app_comm_cons, !ts_log_diff_cons.
    rewrite returns_from_app, dropna_app. f_equal.
    cbn [returns_from]. rewrite fsub_nan_l.
    cbn [fmul dropna filter isnan negb].
    fold (dropna (returns_from NaN s2)).
    rewrite <- ts_log_diff_cons. apply ts_log_diff_after_nan.
Qed.

Lemma last_finite (rs : list R) (r : R) :
  last (finite rs) (Fin r) = Fin (last rs r).
Proof.
  unfold finite. revert r. induction rs as [|x rs IH]; intros r; auto.
  simpl. destruct rs as [|y rs]; [reflexivity|].
  apply (IH r).
Qed.



(** *** Properties *)

(** X12: for every series, [ts_log_diff] holds no NaN and has at most one entry
    fewer than the series has. *)
Theorem ts_log_diff_no_nan (s : series) :
  ~ In NaN (ts_log_diff s)
  /\ (length (ts_log_diff s) <= length s - 1)%nat.
Proof.
  split.
  - unfold ts_log_diff, log_diff_lag, dropna. intros Hin.
    apply filter_In in Hin. destruct Hin as [_ H]. discriminate.
  - destruct s as [|a s]; [simpl; lia|].
    rewrite ts_log_diff_cons. unfold dropna.
    pose proof (filter_length_le (fun x => negb (isnan x)) (returns_from a s))
      as Hle.
    assert (Hlen : length (returns_from a s) = length s).
    { clear. revert a. induction s as [|x s IH]; intros a; simpl; auto. }
    simpl. lia.
Qed.

(** X13: a negative price raises nothing: its logarithm is NaN and the two
    returns that touch it are dropped.  The result is the returns of the
    prices before it followed by the returns of the prices after it. *)
Theorem negative_price_splits (v : R) (s1 s2 : series) :
  v < 0 ->
  ts_log_diff (map np_log (s1 ++ Fin v :: s2))
  = ts_log_diff (map np_log s1) ++ ts_log_diff (map np_log s2).
Proof.
  intros Hv. rewrite map_app. cbn [map].
  assert (Hlog : np_log (Fin v) = NaN).
  { unfold np_log.
    destruct (Rlt_dec 0 v) as [H|_]; [lra|].
    destruct (Req_dec_T v 0) as [H|_]; [lra|reflexivity]. }
  rewrite Hlog. apply nan_splits.
Qed.

Lemma negative_price_splits_witness :
  ts_log_diff (map np_log ([Fin 1; Fin 2] ++ Fin (- 1) :: [Fin 3; Fin 4]))
  = ts_log_diff (map np_log [Fin 1; Fin 2])
    ++ ts_log_diff (map np_log [Fin 3; Fin 4]).
Proof.
  apply (negative_price_splits (- 1) [Fin 1; Fin 2] [Fin 3; Fin 4]). lra.
Defined.

Lemma neg_inf_between (x y : R) (xs ys : list R) :
  ts_log_diff (finite (x :: xs) ++ NInf :: finite (y :: ys))
  = ts_log_diff (finite (x :: xs))
    ++ [NInf; PInf]
    ++ ts_log_diff (finite (y :: ys)).
Proof.
  change (finite (x :: xs)) with (Fin x :: finite xs).
  change (finite (y :: ys)) with (Fin y :: finite ys).
  rewrite <- app_comm_cons, !ts_log_diff_cons.
  rewrite returns_from_app, dropna_app. f_equal.
  rewrite last_finite.
  cbn [returns_from]. unfold fsub. cbn [fneg fadd fmul].
  unfold inf_of_sign.
  destruct (Rlt_dec 0 (- (100))) as [H|_]; [lra|].
  destruct (Rlt_dec (- (100)) 0) as [_|H]; [|lra].
  destruct (Rlt_dec 0 100) as [_|H]; [|lra].
  reflexivity.
Qed.

(** X14: a zero price raises nothing and is not dropped either: between positive
    prices it leaves the two entries -inf and +inf in the result. *)
Theorem zero_price_gives_infinities (a b : R) (rs1 rs2 : list R) :
  all_positive (a :: rs1) ->
  all_positive (b :: rs2) ->
  ts_log_diff (map np_log (finite ((a :: rs1) ++ 0 :: b :: rs2)))
  = ts_log_diff (map np_log (finite (a :: rs1)))
    ++ [NInf; PInf]
    ++ ts_log_diff (map np_log (finite (b :: rs2))).
Proof.
  intros H1 H2.
  assert (H0 : np_log (Fin 0) = NInf).
  { unfold np_log.
    destruct (Rlt_dec 0 0) as [H|_]; [lra|].
    destruct (Req_dec_T 0 0) as [_|H]; [reflexivity|lra]. }
  assert (Hsplit : map np_log (finite ((a :: rs1) ++ 0 :: b :: rs2))
                   = map np_log (finite (a :: rs1))
                     ++ np_log (Fin 0) :: map np_log (finite (b :: rs2))).
  { unfold finite. now rewrite !map_app. }
  rewrite Hsplit, H0, (log_positive _ H1), (log_positive _ H2).
  apply neg_inf_between.
Qed.

Lemma zero_price_gives_infinities_witness :
  ts_log_diff (map np_log (finite ((1 :: [2]) ++ 0 :: 3 :: [4])))
  = ts_log_diff (map np_log (finite (1 :: [2])))
    ++ [NInf; PInf]
    ++ ts_log_diff (map np_log (finite (3 :: [4]))).
Proof.
  apply (zero_price_gives_infinities 1 3 [2] [4]);
    repeat constructor; lra.
Defined.








End Returns.

(** ** The printed verdict of [test_stationarity] (lines 250-256) *)

Module VerdictFacts.

Import Stationarity.

(** X17: whenever [adfuller] returns critical values, exactly one verdict is
    printed and the first critical value alone decides it: "non stationary"
    when the statistic is above it, "stationary" otherwise.  The p-value and
    the other critical values are not consulted. *)
Theorem verdict_by_first_critical_value
    (adfuller : list npfloat -> adf_result) (x : list npfloat)
    (key : string) (value : R) (others : list (string * R)) :
  adf_crit (adfuller x) = (key, value) :: others ->
  verdict_lines (test_stationarity adfuller x)
  = [verdict_text (if Rgt_dec (adf_stat (adfuller x)) value
                   then NON_STATIONARY else STATIONARY)].
Proof.
  intros Hc.
  rewrite verdict_lines_test_stationarity, Hc. simpl.
  destruct (Rgt_dec (adf_stat (adfuller x)) value); reflexivity.
Qed.

Lemma verdict_by_first_critical_value_witness :
  verdict_lines (test_stationarity (fun _ => borderline) [Fin 1])
  = [verdict_text (if Rgt_dec (adf_stat ((fun _ => borderline) [Fin 1]))
                               (- (343 / 100))
                   then NON_STATIONARY else STATIONARY)].
Proof.
  apply (verdict_by_first_critical_value (fun _ => borderline) [Fin 1]
           "1%"%string (- (343 / 100))
           [("5%"%string, - (286 / 100)); ("10%"%string, - (257 / 100))]).
  reflexivity.
Defined.

End VerdictFacts.

(** ** Candlestick columns (lines 857-861) *)

Module Candles.

(** [a > b] on floats: false as soon as one side is NaN. *)
Definition fgt (a b : npfloat) : bool :=
  match a, b with
  | NaN, _ => false
  | _, NaN => false
  | Fin x, Fin y => if Rlt_dec y x then true else false
  | PInf, PInf => false
  | PInf, _ => true
  | NInf, _ => false
  | Fin _, NInf => true
  | Fin _, PInf => false
  end.

(** The rows of [df]: the Open and the Close value of each day. *)
Definition rows (open close : list npfloat) : list (npfloat * npfloat) :=
  combine open close.



(** Line 860: [inc = df.Close > df.Open]. *)
Definition inc (open close : list npfloat) : list bool :=
  map (fun oc => fgt (snd oc) (fst oc)) (rows open close).

(** Line 861: [dec = df.Open > df.Close]. *)
Definition dec (open close : list npfloat) : list bool :=
  map (fun oc => fgt (fst oc) (snd oc)) (rows open close).

Lemma fgt_asym (a b : npfloat) : fgt a b = true -> fgt b a = false.
Proof.
  destruct a as [x| | |], b as [y| | |]; simpl; try discriminate; auto.
  destruct (Rlt_dec y x), (Rlt_dec x y); auto; try discriminate. lra.
Qed.

(** X18: no day is both rising and falling, whatever the values (infinities and
    NaN included). *)
Theorem inc_dec_exclusive (open close : list npfloat) (i : nat) :
  nth_error (inc open close) i = Some true ->
  nth_error (dec open close) i = Some false.
Proof.
  unfold inc, dec. rewrite !nth_error_map.
  destruct (nth_error (rows open close) i) as [[o c]|]; simpl;
    [|discriminate].
  intros H. injection H as H. now rewrite (fgt_asym _ _ H).
Qed.

Lemma inc_dec_exclusive_witness :
  nth_error (dec [Fin 1; Fin 5] [Fin 2; Fin 4]) 0 = Some false.
Proof.
  apply (inc_dec_exclusive [Fin 1; Fin 5] [Fin 2; Fin 4] 0).
  simpl. destruct (Rlt_dec 1 2) as [_|H]; [reflexivity|lra].
Defined.

(** X19: a day with finite values is neither rising nor falling exactly when it
    closes where it opened; such a day gets no rectangle of either colour. *)
Theorem flat_day_in_neither (open close : list npfloat) (i : nat) (o c : R) :
  nth_error (rows open close) i = Some (Fin o, Fin c) ->
  (nth_error (inc open close) i = Some false
   /\ nth_error (dec open close) i = Some false)
  <-> o = c.
Proof.
  intros Hrow. unfold inc, dec. rewrite !nth_error_map, Hrow. simpl.
  destruct (Rlt_dec o c), (Rlt_dec c o); split;
    try (intros [H1 H2]; discriminate); try (intros ->; lra); intros; try lra;
    auto.
Qed.

Lemma flat_day_in_neither_witness :
  (nth_error (inc [Fin 3] [Fin 3]) 0 = Some false
   /\ nth_error (dec [Fin 3] [Fin 3]) 0 = Some false)
  <-> 3 = 3.
Proof.
  apply (flat_day_in_neither [Fin 3] [Fin 3] 0 3 3). reflexivity.
Defined.



End Candles.

(** ** Inputs and targets of the recurrent network (lines 616-634) *)

Module Supervised.

Import Split.

(** Line 616: [X_train = training_set[0:1043]]. *)
Definition X_train {A : Type} (training_set : list A) : list A :=
  py_slice training_set 0 1043.

(** Line 617: [y_train = training_set[1:1044]]. *)
Definition y_train {A : Type} (training_set : list A) : list A :=
  py_slice training_set 1 1044.

(** Line 634: [np.reshape(X_train, (1043, 1, 1))], on rows of one value
    each; numpy raises when the number of values is not 1043. *)
Definition reshape_X {A : Type} (X : list A) : result (list A) :=
  if Nat.eqb (length X) 1043 then Ok X else Raise ValueError.

Lemma X_train_firstn {A : Type} (training_set : list A) :
  X_train training_set = firstn 1043 training_set.
Proof.
  unfold X_train, py_slice. rewrite slice_bound_zero, Nat.sub_0_r.
  cbn [skipn]. unfold slice_bound.
  destruct (Z.ltb_spec 1043 0) as [H|_]; [lia|].
  replace (Z.to_nat 1043) with 1043%nat by lia.
  rewrite <- (firstn_firstn training_set 1043 (length training_set)).
  now rewrite firstn_all.
Qed.

Lemma y_train_nth {A : Type} (training_set : list A) (i : nat) :
  nth_error (y_train training_set) i
  = if (i <? 1043)%nat then nth_error training_set (S i) else None.
Proof.
  unfold y_train, py_slice, slice_bound.
  destruct (Z.ltb_spec 1 0) as [H|_]; [lia|].
  destruct (Z.ltb_spec 1044 0) as [H|_]; [lia|].
  replace (Z.to_nat 1) with 1%nat by lia.
  replace (Z.to_nat 1044) with 1044%nat by lia.
  rewrite nth_error_firstn, nth_error_skipn.
  destruct training_set as [|a l].
  - simpl. destruct (i <? 1043)%nat; [|reflexivity].
    now destruct i.
  - change (length (a :: l)) with (S (length l)).
    replace (Nat.min 1 (S (length l))) with 1%nat by lia.
    destruct (Nat.ltb_spec i 1043) as [Hi|Hi];
      destruct (Nat.ltb_spec i (Nat.min 1044 (S (length l)) - 1)) as [Hj|Hj];
      try reflexivity; try lia.
    symmetry. apply nth_error_None. simpl. lia.
Qed.

(** X21: every target is the value that follows its input: [y_train[i]] is
    [training_set[i + 1]] and [X_train[i]] is [training_set[i]]. *)
Theorem targets_follow_inputs {A : Type} (training_set : list A) (i : nat)
    (v : A) :
  nth_error (y_train training_set) i = Some v ->
  nth_error training_set (S i) = Some v
  /\ exists u,
       nth_error (X_train training_set) i = Some u
       /\ nth_error training_set i = Some u.
Proof.
  rewrite y_train_nth, X_train_firstn, nth_error_firstn.
  destruct (Nat.ltb_spec i 1043) as [Hi|Hi]; [|discriminate].
  intros Hv. split; [exact Hv|].
  destruct (nth_error training_set i) as [u|] eqn:Hu.
  - exists u. auto.
  - apply nth_error_None in Hu.
    assert (Hs : nth_error training_set (S i) <> None) by congruence.
    apply nth_error_Some in Hs. lia.
Qed.

Lemma targets_follow_inputs_witness :
  nth_error [10%nat; 20%nat; 30%nat] 1 = Some 20%nat
  /\ exists u,
       nth_error (X_train [10%nat; 20%nat; 30%nat]) 0 = Some u
       /\ nth_error [10%nat; 20%nat; 30%nat] 0 = Some u.
Proof.
  apply (targets_follow_inputs [10%nat; 20%nat; 30%nat] 0 20%nat).
  rewrite y_train_nth. reflexivity.
Defined.

(** X22: the reshape succeeds exactly when there are at least 1043 rows, while
    inputs and targets have the same number of rows only with no row at all
    or at least 1044: with exactly 1043 rows the reshape passes and the
    targets are one short. *)
Theorem shapes {A : Type} (training_set : list A) :
  (reshape_X (X_train training_set) = Ok (X_train training_set)
   <-> (1043 <= length training_set)%nat)
  /\ (length (X_train training_set) = length (y_train training_set)
      <-> length training_set = 0%nat \/ (1044 <= length training_set)%nat).
Proof.
  assert (HX : length (X_train training_set)
               = Nat.min 1043 (length training_set)).
  { rewrite X_train_firstn. apply length_firstn. }
  assert (Hy : length (y_train training_set)
               = Nat.min 1043 (length training_set - 1)).
  { unfold y_train, py_slice, slice_bound.
    destruct (Z.ltb_spec 1 0) as [H|_]; [lia|].
    destruct (Z.ltb_spec 1044 0) as [H|_]; [lia|].
    rewrite length_firstn, length_skipn. lia. }
  split.
  - unfold reshape_X. rewrite HX.
    destruct (Nat.eqb_spec (Nat.min 1043 (length training_set)) 1043);
      split; intros H; try reflexivity; try discriminate; lia.
  - rewrite HX, Hy. lia.
Qed.

End Supervised.

(** ** The filter on the notebook's parameters (lines 831-846) *)

Module KalmanFacts.

Import Kalman.

Lemma constant_from (p : params) (c : R) (n : nat) :
  F p = 1 -> H p = 1 ->
  forall s, mean s = c ->
    map mean (filter_from p s (repeat c n)) = repeat c n.
Proof.
  intros HF HH.
  induction n as [|n IH]; intros s Hs; [reflexivity|].
  cbn [repeat filter_from map].
  destruct (update_mean_fixed p (predict p s) c HH) as [_ Hm].
  { simpl. rewrite HF, Hs. ring. }
  rewrite Hm. f_equal. now apply IH.
Qed.

(** X23: on a constant Close column the state means are the column itself: the
    initial mean is the first observation and every innovation is zero. *)
Theorem constant_column_is_kept (c : R) (n : nat) :
  notebook_state_means (repeat c (S n)) = Ok (repeat c (S n)).
Proof.
  unfold notebook_state_means. cbn [repeat]. f_equal.
  apply (constant_from (notebook_params c) c (S n)); reflexivity.
Qed.

End KalmanFacts.
